(** * myNanny: the account gate of the users and admin services

    A shallow embedding of [backend/src/users/users.service.ts] and
    [backend/src/users/admin/admin.service.ts] over a model of the two
    tables they touch ("User" and "Profile" of the Prisma migrations),
    followed by the properties of the account gate. *)

From Stdlib Require Import ZArith.
From stdpp Require Import base option strings gmap.

Local Open Scope Z_scope.
Local Open Scope string_scope.

(** ** The schema (prisma/migrations) *)

Inductive Role := ADMIN | PARENT | NANNY.
Inductive AccountStatus := PENDING_PAYMENT | ACTIVE | SUSPENDED.
Inductive BackgroundStatus := PENDING | PASSED | FAILED.

#[global] Instance Role_eq_dec : EqDecision Role.
Proof. solve_decision. Defined.
#[global] Instance AccountStatus_eq_dec : EqDecision AccountStatus.
Proof. solve_decision. Defined.
#[global] Instance BackgroundStatus_eq_dec : EqDecision BackgroundStatus.
Proof. solve_decision. Defined.

(** A TIMESTAMP(3) value: milliseconds since the epoch. *)
Definition Timestamp := Z.

(** A row of "User".  The primary key "id" is the key under which the row
    is stored in [users]; the columns "createdAt" and "updatedAt" are
    filled in by the database toolkit, are neither read nor written by
    the services, and are left out. *)
Record User := mkUser {
  email : string;
  password : string;
  fullName : string;
  role : Role;
  accountStatus : AccountStatus;
  approvedAt : option Timestamp;
  backgroundStatus : BackgroundStatus
}.

(** A row of "Profile".  The column "userId" carries a unique index and a
    foreign key to "User": it is the key under which the row is stored in
    [profiles].  [profileId] is the primary key "id". *)
Record Profile := mkProfile {
  profileId : string;
  bio : option string;
  location : option string;
  experience : option Z;
  isComplete : bool
}.

Record DB := mkDB {
  users : gmap string User;
  profiles : gmap string Profile
}.

Definition set_accountStatus (s : AccountStatus) (u : User) : User :=
  mkUser (email u) (password u) (fullName u) (role u) s
         (approvedAt u) (backgroundStatus u).

Definition set_approvedAt (t : option Timestamp) (u : User) : User :=
  mkUser (email u) (password u) (fullName u) (role u) (accountStatus u)
         t (backgroundStatus u).

Definition set_backgroundStatus (s : BackgroundStatus) (u : User) : User :=
  mkUser (email u) (password u) (fullName u) (role u) (accountStatus u)
         (approvedAt u) s.

Definition set_isComplete (b : bool) (p : Profile) : Profile :=
  mkProfile (profileId p) (bio p) (location p) (experience p) b.

(** ** Exceptions and the service monad *)

Inductive Exn :=
  | NotFoundException
  | ConflictException
  | InternalServerErrorException
  | PrismaClientKnownRequestError (code : string).

Inductive Outcome (A : Type) :=
  | Ok (a : A)
  | Throw (e : Exn).
Arguments Ok {A} a.
Arguments Throw {A} e.

(** An [async] method: it runs against the store, may write to it, and
    either returns or throws; what was written before a throw stays. *)
Definition Svc (A : Type) : Type := DB -> DB * Outcome A.

Definition ret {A} (a : A) : Svc A := fun db => (db, Ok a).
Definition throw {A} (e : Exn) : Svc A := fun db => (db, Throw e).
Definition bind {A B} (m : Svc A) (k : A -> Svc B) : Svc B :=
  fun db => match m db with
            | (db', Ok a) => k a db'
            | (db', Throw e) => (db', Throw e)
            end.
Definition try_catch {A} (m : Svc A) (h : Exn -> Svc A) : Svc A :=
  fun db => match m db with
            | (db', Ok a) => (db', Ok a)
            | (db', Throw e) => h e db'
            end.

Declare Scope svc_scope.
Delimit Scope svc_scope with svc.
Notation "x <- m ;; k" := (bind m (fun x => k))
  (at level 100, m at next level, right associativity) : svc_scope.
Notation "m ;;; k" := (bind m (fun _ => k))
  (at level 100, right associativity) : svc_scope.
Local Open Scope svc_scope.

(** ** The store: what the Prisma client and the raw statements do *)

(** [prisma.user.findUnique({ where: { id } })] *)
Definition user_findUnique (id : string) : Svc (option User) :=
  fun db => (db, Ok (users db !! id)).

(** [prisma.user.findUnique({ where: { id }, include: { profile: true } })]:
    the profile joined on "Profile"."userId" = "User"."id". *)
Definition user_findUnique_include_profile (id : string)
  : Svc (option (User * option Profile)) :=
  fun db => (db, Ok (match users db !! id with
                     | Some u => Some (u, profiles db !! id)
                     | None => None
                     end)).

(** [prisma.user.update({ where: { id }, data })] with scalar data only: a
    missing record is the client's error P2025. *)
Definition user_update (id : string) (f : User -> User) : Svc User :=
  fun db => match users db !! id with
            | Some u => (mkDB (<[id := f u]> (users db)) (profiles db), Ok (f u))
            | None => (db, Throw (PrismaClientKnownRequestError "P2025"))
            end.

(** [UPDATE "User" SET ... WHERE "id" = id]; the result is the number of
    rows affected. *)
Definition executeRaw_update_User (id : string) (f : User -> User) : Svc nat :=
  fun db => match users db !! id with
            | Some u => (mkDB (<[id := f u]> (users db)) (profiles db), Ok 1%nat)
            | None => (db, Ok 0%nat)
            end.

(** [UPDATE "Profile" SET ... WHERE "userId" = userId] *)
Definition executeRaw_update_Profile (userId : string) (f : Profile -> Profile)
  : Svc nat :=
  fun db => match profiles db !! userId with
            | Some p => (mkDB (users db) (<[userId := f p]> (profiles db)), Ok 1%nat)
            | None => (db, Ok 0%nat)
            end.

(** Whether some row of "Profile" has the primary key [pid]. *)
Definition profileId_taken (pid : string) (db : DB) : bool :=
  bool_decide (map_Exists (fun _ p => profileId p = pid) (profiles db)).

(** Whether some row of "User" has the e-mail address [e]. *)
Definition email_taken (e : string) (db : DB) : bool :=
  bool_decide (map_Exists (fun _ u => email u = e) (users db)).

(** [INSERT INTO "Profile" ("id","userId","isComplete") VALUES (pid, userId, c)]
    as a raw statement.  The other columns are NULL.  The statement fails
    (raw query error P2010) when the primary key or the unique index on
    "userId" is violated, or when the foreign key finds no user. *)
Definition executeRaw_insert_Profile (pid userId : string) (c : bool) : Svc nat :=
  fun db =>
    if profileId_taken pid db then (db, Throw (PrismaClientKnownRequestError "P2010"))
    else match profiles db !! userId, users db !! userId with
         | None, Some _ =>
             (mkDB (users db)
                   (<[userId := mkProfile pid None None None c]> (profiles db)),
              Ok 1%nat)
         | _, _ => (db, Throw (PrismaClientKnownRequestError "P2010"))
         end.

(** [SELECT "approvedAt" FROM "User" WHERE "id" = id]: the rows found. *)
Definition queryRaw_approvedAt (id : string) : Svc (list (option Timestamp)) :=
  fun db => (db, Ok (match users db !! id with
                     | Some u => [approvedAt u]
                     | None => []
                     end)).

(** [prisma.user.create({ data })] with an optional nested
    [profile: { create }].  [newId] and [newProfileId] are the identifiers
    the client generates.  The columns not given take the defaults of the
    schema: "accountStatus" PENDING_PAYMENT, "backgroundStatus" PENDING,
    "approvedAt" NULL and, for the profile, "isComplete" false.  A unique
    constraint that fails is the client's error P2002, and nothing is
    written. *)
Definition user_create (newId newProfileId : string)
    (e pw fn : string) (r : Role)
    (prof : option (option string * option string * option Z)) : Svc User :=
  fun db =>
    let u := mkUser e pw fn r PENDING_PAYMENT None PENDING in
    if bool_decide (is_Some (users db !! newId)) || email_taken e db
    then (db, Throw (PrismaClientKnownRequestError "P2002"))
    else match prof with
         | None => (mkDB (<[newId := u]> (users db)) (profiles db), Ok u)
         | Some (b, l, x) =>
             if profileId_taken newProfileId db
                || bool_decide (is_Some (profiles db !! newId))
             then (db, Throw (PrismaClientKnownRequestError "P2002"))
             else (mkDB (<[newId := u]> (users db))
                        (<[newId := mkProfile newProfileId b l x false]>
                           (profiles db)),
                   Ok u)
         end.

(** [prisma.user.update({ where: { id }, data, include: { profile: true } })]
    where [data] holds the scalar changes [f] and, when [prof] is given,
    a nested [profile: { upsert: { create, update } }]: [create] gives the
    columns of a new profile (the others take their defaults, "isComplete"
    false), [update] the changes to an existing one. *)
Definition user_update_include_profile (newProfileId id : string)
    (f : User -> User)
    (prof : option ((option string * option string * option Z)
                    * (Profile -> Profile)))
  : Svc (User * option Profile) :=
  fun db =>
    match users db !! id with
    | None => (db, Throw (PrismaClientKnownRequestError "P2025"))
    | Some u =>
        match prof with
        | None =>
            (mkDB (<[id := f u]> (users db)) (profiles db),
             Ok (f u, profiles db !! id))
        | Some ((b, l, x), update) =>
            match profiles db !! id with
            | Some p =>
                (mkDB (<[id := f u]> (users db))
                      (<[id := update p]> (profiles db)),
                 Ok (f u, Some (update p)))
            | None =>
                if profileId_taken newProfileId db
                then (db, Throw (PrismaClientKnownRequestError "P2002"))
                else
                  let p := mkProfile newProfileId b l x false in
                  (mkDB (<[id := f u]> (users db))
                        (<[id := p]> (profiles db)),
                   Ok (f u, Some p))
            end
        end
    end.

(** ** The request objects (dto/create-user.dto.ts, dto/update-user.dto.ts) *)

Module CreateUserProfileDto.
Record t := mk {
  bio : option string;
  location : option string;
  experience : option Z
}.
End CreateUserProfileDto.

Module CreateUserDto.
Record t := mk {
  email : string;
  password : string;
  fullName : string;
  profile : option CreateUserProfileDto.t
}.
End CreateUserDto.

Module UpdateUserProfileDto.
Record t := mk {
  bio : option string;
  location : option string;
  experience : option Z
}.
End UpdateUserProfileDto.

Module UpdateUserDto.
Record t := mk {
  fullName : option string;
  password : option string;
  profile : option UpdateUserProfileDto.t
}.
End UpdateUserDto.

(** In [data], [v ?? undefined] leaves the column alone when [v] is absent. *)
Definition or_keep {A} (v : option A) (old : A) : A :=
  match v with Some a => a | None => old end.

(** ** AdminService (users/admin/admin.service.ts) *)

Module AdminService.

(** [now] is the value of NOW() and [uuid] that of gen_random_uuid()
    when the statements run. *)
Definition approveProfile (now : Timestamp) (uuid : string) (userId : string)
  : Svc (option User) :=
  user <- user_findUnique_include_profile userId ;;
  match user with
  | None => throw NotFoundException
  | Some (_, profile) =>
      (match profile with
       | None => executeRaw_insert_Profile uuid userId true
       | Some p =>
           if negb (isComplete p)
           then executeRaw_update_Profile userId (set_isComplete true)
           else ret 0%nat
       end) ;;;
      executeRaw_update_User userId (set_approvedAt (Some now)) ;;;
      user_findUnique userId
  end.

Definition activateAfterPayment (userId : string) : Svc User :=
  user_update userId (set_accountStatus ACTIVE).

End AdminService.

(** ** UsersService (users/users.service.ts) *)

Module UsersService.

Definition rethrow {A} (e : Exn) : Svc A :=
  match e with
  | PrismaClientKnownRequestError code =>
      if String.eqb code "P2002" then throw ConflictException
      else throw InternalServerErrorException
  | NotFoundException => throw NotFoundException
  | ConflictException => throw ConflictException
  | InternalServerErrorException => throw InternalServerErrorException
  end.

Definition createUserWithRole (newId newProfileId : string)
    (input : CreateUserDto.t) (r : Role) : Svc User :=
  try_catch
    (user_create newId newProfileId
       (CreateUserDto.email input) (CreateUserDto.password input)
       (CreateUserDto.fullName input) r
       (match CreateUserDto.profile input with
        | Some p => Some (CreateUserProfileDto.bio p,
                          CreateUserProfileDto.location p,
                          CreateUserProfileDto.experience p)
        | None => None
        end))
    rethrow.

Definition createParent (newId newProfileId : string)
    (input : CreateUserDto.t) : Svc User :=
  try_catch (createUserWithRole newId newProfileId input PARENT) rethrow.

Definition createNanny (newId newProfileId : string)
    (input : CreateUserDto.t) : Svc User :=
  try_catch (createUserWithRole newId newProfileId input NANNY) rethrow.

Definition setBackgroundStatus (userId : string) (status : BackgroundStatus)
  : Svc User :=
  try_catch
    (executeRaw_update_User userId (set_backgroundStatus status) ;;;
     updated <- user_findUnique userId ;;
     match updated with
     | None => throw NotFoundException
     | Some u => ret u
     end)
    rethrow.

(** [Boolean(approvedAt)] on a [Date | null]: a date object is truthy. *)
Definition Boolean_date (d : option Timestamp) : bool :=
  match d with Some _ => true | None => false end.

(** [Boolean(user.profile?.isComplete)] *)
Definition Boolean_isComplete (p : option Profile) : bool :=
  match p with Some q => isComplete q | None => false end.

Definition canAccessServices (userId : string) : Svc bool :=
  try_catch
    (user <- user_findUnique_include_profile userId ;;
     rows <- queryRaw_approvedAt userId ;;
     let approvedAt := match rows with r :: _ => r | [] => None end in
     match user with
     | None => throw NotFoundException
     | Some (u, profile) =>
         let isActive := bool_decide (accountStatus u = ACTIVE) in
         let hasCompleteProfile := Boolean_isComplete profile in
         let bgPassed := bool_decide (backgroundStatus u = PASSED) in
         let adminApproved := Boolean_date approvedAt in
         ret (isActive && hasCompleteProfile && bgPassed && adminApproved)
     end)
    rethrow.

Definition getById (id : string) : Svc (User * option Profile) :=
  try_catch
    (user <- user_findUnique_include_profile id ;;
     match user with
     | None => throw NotFoundException
     | Some r => ret r
     end)
    rethrow.

(** The scalar part of [data] in [updateUser]. *)
Definition updateUser_data (data : UpdateUserDto.t) (u : User) : User :=
  mkUser (email u)
         (or_keep (UpdateUserDto.password data) (password u))
         (or_keep (UpdateUserDto.fullName data) (fullName u))
         (role u) (accountStatus u) (approvedAt u) (backgroundStatus u).

(** The [update] branch of the profile upsert in [updateUser]. *)
Definition updateUser_profile (p : UpdateUserProfileDto.t) (q : Profile)
  : Profile :=
  mkProfile (profileId q)
            (or_keep (Some <$> UpdateUserProfileDto.bio p) (bio q))
            (or_keep (Some <$> UpdateUserProfileDto.location p) (location q))
            (or_keep (Some <$> UpdateUserProfileDto.experience p) (experience q))
            (isComplete q).

Definition updateUser (newProfileId : string) (id : string)
    (data : UpdateUserDto.t) : Svc (User * option Profile) :=
  try_catch
    (existing <- user_findUnique id ;;
     match existing with
     | None => throw NotFoundException
     | Some _ =>
         user_update_include_profile newProfileId id
           (updateUser_data data)
           (match UpdateUserDto.profile data with
            | Some p =>
                Some ((UpdateUserProfileDto.bio p,
                       UpdateUserProfileDto.location p,
                       UpdateUserProfileDto.experience p),
                      updateUser_profile p)
            | None => None
            end)
     end)
    rethrow.

Definition setAccountActive (userId : string) : Svc User :=
  try_catch (user_update userId (set_accountStatus ACTIVE)) rethrow.

Definition suspend (userId : string) : Svc User :=
  try_catch (user_update userId (set_accountStatus SUSPENDED)) rethrow.

End UsersService.

(** ** The operations as one step function

    Every method of the two services that takes a user through the gate
    or writes to the store.  (The list queries [listParents] and
    [listNannies] only read.) *)

Inductive Call :=
  | ApproveProfile (now : Timestamp) (uuid userId : string)
  | ActivateAfterPayment (userId : string)
  | CreateParent (newId newProfileId : string) (input : CreateUserDto.t)
  | CreateNanny (newId newProfileId : string) (input : CreateUserDto.t)
  | SetBackgroundStatus (userId : string) (status : BackgroundStatus)
  | CanAccessServices (userId : string)
  | GetById (id : string)
  | UpdateUser (newProfileId id : string) (data : UpdateUserDto.t)
  | SetAccountActive (userId : string)
  | Suspend (userId : string).

(** The store after a call, whether it returned or threw. *)
Definition exec (c : Call) (db : DB) : DB :=
  match c with
  | ApproveProfile now uuid userId =>
      fst (AdminService.approveProfile now uuid userId db)
  | ActivateAfterPayment userId => fst (AdminService.activateAfterPayment userId db)
  | CreateParent newId newProfileId input =>
      fst (UsersService.createParent newId newProfileId input db)
  | CreateNanny newId newProfileId input =>
      fst (UsersService.createNanny newId newProfileId input db)
  | SetBackgroundStatus userId status =>
      fst (UsersService.setBackgroundStatus userId status db)
  | CanAccessServices userId => fst (UsersService.canAccessServices userId db)
  | GetById id => fst (UsersService.getById id db)
  | UpdateUser newProfileId id data =>
      fst (UsersService.updateUser newProfileId id data db)
  | SetAccountActive userId => fst (UsersService.setAccountActive userId db)
  | Suspend userId => fst (UsersService.suspend userId db)
  end.

Definition is_approveProfile (c : Call) : bool :=
  match c with ApproveProfile _ _ _ => true | _ => false end.

(** ** Sample stores

    Ann signs up as a parent without a profile, Ben as a nanny with one;
    an administrator then approves Ben at time 1000. *)

Definition ann : CreateUserDto.t :=
  CreateUserDto.mk "ann@example.com" "hash-a" "Ann" None.

Definition ben : CreateUserDto.t :=
  CreateUserDto.mk "ben@example.com" "hash-b" "Ben"
    (Some (CreateUserProfileDto.mk (Some "Five years with toddlers") None (Some 5))).

Definition db_empty : DB := mkDB ∅ ∅.

Definition db_ann : DB := fst (UsersService.createParent "u1" "p1" ann db_empty).

Definition db_ben : DB := fst (UsersService.createNanny "u2" "p2" ben db_ann).

Definition db_ben_approved : DB :=
  fst (AdminService.approveProfile 1000 "p3" "u2" db_ben).

Definition ann_row : User :=
  mkUser "ann@example.com" "hash-a" "Ann" PARENT PENDING_PAYMENT None PENDING.

Definition ben_row : User :=
  mkUser "ben@example.com" "hash-b" "Ben" NANNY PENDING_PAYMENT None PENDING.

Definition new_bio : UpdateUserDto.t :=
  UpdateUserDto.mk None None
    (Some (UpdateUserProfileDto.mk (Some "Six years with toddlers") None None)).

(** ** What a call may do to the two gate columns it does not own *)

(** From [m] to [m'] no profile is lost, every profile that was there has
    the [isComplete] it had, and every new one has [isComplete] false. *)
Definition isComplete_kept (m m' : gmap string Profile) : Prop :=
  forall k : string,
    match m !! k with
    | Some p => exists p', m' !! k = Some p' /\ isComplete p' = isComplete p
    | None => forall p', m' !! k = Some p' -> isComplete p' = false
    end.

(** From [m] to [m'] no user is lost, every user that was there has the
    [approvedAt] it had, and every new one has [approvedAt] null. *)
Definition approvedAt_kept (m m' : gmap string User) : Prop :=
  forall k : string,
    match m !! k with
    | Some u => exists u', m' !! k = Some u' /\ approvedAt u' = approvedAt u
    | None => forall u', m' !! k = Some u' -> approvedAt u' = None
    end.

(** ** Calls: whose rows they address, what they throw, and runs of them *)

(** The user a call addresses: the [where: { id }] of its statements, or
    the identifier of the user it creates. *)
Definition target (c : Call) : string :=
  match c with
  | ApproveProfile _ _ userId => userId
  | ActivateAfterPayment userId => userId
  | CreateParent newId _ _ => newId
  | CreateNanny newId _ _ => newId
  | SetBackgroundStatus userId _ => userId
  | CanAccessServices userId => userId
  | GetById id => id
  | UpdateUser _ id _ => id
  | SetAccountActive userId => userId
  | Suspend userId => userId
  end.

Definition thrown {A} (o : Outcome A) : option Exn :=
  match o with Ok _ => None | Throw e => Some e end.

(** The exception a call ends with, if it throws. *)
Definition error_of (c : Call) (db : DB) : option Exn :=
  match c with
  | ApproveProfile now uuid userId =>
      thrown (snd (AdminService.approveProfile now uuid userId db))
  | ActivateAfterPayment userId =>
      thrown (snd (AdminService.activateAfterPayment userId db))
  | CreateParent newId newProfileId input =>
      thrown (snd (UsersService.createParent newId newProfileId input db))
  | CreateNanny newId newProfileId input =>
      thrown (snd (UsersService.createNanny newId newProfileId input db))
  | SetBackgroundStatus userId status =>
      thrown (snd (UsersService.setBackgroundStatus userId status db))
  | CanAccessServices userId =>
      thrown (snd (UsersService.canAccessServices userId db))
  | GetById id => thrown (snd (UsersService.getById id db))
  | UpdateUser newProfileId id data =>
      thrown (snd (UsersService.updateUser newProfileId id data db))
  | SetAccountActive userId =>
      thrown (snd (UsersService.setAccountActive userId db))
  | Suspend userId => thrown (snd (UsersService.suspend userId db))
  end.

(** The calls that are methods of [UsersService]. *)
Definition in_UsersService (c : Call) : bool :=
  match c with
  | ApproveProfile _ _ _ | ActivateAfterPayment _ => false
  | _ => true
  end.

(** The calls that write "accountStatus". *)
Definition writes_accountStatus (c : Call) : bool :=
  match c with
  | ActivateAfterPayment _ | SetAccountActive _ | Suspend _ => true
  | _ => false
  end.

(** The store after a run of calls, first call first. *)
Definition exec_all (cs : list Call) (db : DB) : DB :=
  foldl (fun d c => exec c d) db cs.

(** ** The constraints of the schema *)

(** The unique index "User_email_key". *)
Definition email_unique (db : DB) : Prop :=
  forall i j u v,
    users db !! i = Some u -> users db !! j = Some v ->
    email u = email v -> i = j.

(** The primary key "Profile_pkey". *)
Definition profileId_unique (db : DB) : Prop :=
  forall i j p q,
    profiles db !! i = Some p -> profiles db !! j = Some q ->
    profileId p = profileId q -> i = j.

(** The foreign key "Profile_userId_fkey". *)
Definition profile_has_user (db : DB) : Prop :=
  forall k p, profiles db !! k = Some p -> is_Some (users db !! k).

Definition schema_ok (db : DB) : Prop :=
  email_unique db /\ profileId_unique db /\ profile_has_user db.

(** ** The two marks an approval leaves *)

Definition approved (db : DB) (k : string) : Prop :=
  exists u t, users db !! k = Some u /\ approvedAt u = Some t.

Definition complete_profile (db : DB) (k : string) : Prop :=
  exists p, profiles db !! k = Some p /\ isComplete p = true.

Definition approval_consistent (db : DB) : Prop :=
  forall k, approved db k <-> complete_profile db k.

(** ** More sample values *)

Definition no_change : UpdateUserDto.t := UpdateUserDto.mk None None None.

Definition empty_profile : UpdateUserDto.t :=
  UpdateUserDto.mk None None (Some (UpdateUserProfileDto.mk None None None)).

Definition ann_again : CreateUserDto.t :=
  CreateUserDto.mk "ann@example.com" "hash-c" "Ann B" None.


Definition ben_open : list Call :=
  [ CreateParent "u1" "p1" ann; CreateNanny "u2" "p2" ben;
    ApproveProfile 1000 "p3" "u2"; ActivateAfterPayment "u2";
    SetBackgroundStatus "u2" PASSED ].

(** ** Each method as a function of the rows it finds *)

Section Runs.

Variable db : DB.
Variable userId : string.

Lemma canAccessServices_run :
  UsersService.canAccessServices userId db =
  match users db !! userId with
  | None => (db, Throw NotFoundException)
  | Some u =>
      (db, Ok (bool_decide (accountStatus u = ACTIVE)
               && UsersService.Boolean_isComplete (profiles db !! userId)
               && bool_decide (backgroundStatus u = PASSED)
               && UsersService.Boolean_date (approvedAt u)))
  end.
Proof.
  unfold UsersService.canAccessServices, try_catch, bind,
    user_findUnique_include_profile, queryRaw_approvedAt.
  by destruct (users db !! userId).
Qed.

Lemma activateAfterPayment_run :
  AdminService.activateAfterPayment userId db =
  match users db !! userId with
  | None => (db, Throw (PrismaClientKnownRequestError "P2025"))
  | Some u =>
      (mkDB (<[userId := set_accountStatus ACTIVE u]> (users db)) (profiles db),
       Ok (set_accountStatus ACTIVE u))
  end.
Proof. reflexivity. Qed.

Lemma setAccountActive_run :
  UsersService.setAccountActive userId db =
  match users db !! userId with
  | None => (db, Throw InternalServerErrorException)
  | Some u =>
      (mkDB (<[userId := set_accountStatus ACTIVE u]> (users db)) (profiles db),
       Ok (set_accountStatus ACTIVE u))
  end.
Proof.
  unfold UsersService.setAccountActive, try_catch, user_update.
  by destruct (users db !! userId).
Qed.

Lemma suspend_run :
  UsersService.suspend userId db =
  match users db !! userId with
  | None => (db, Throw InternalServerErrorException)
  | Some u =>
      (mkDB (<[userId := set_accountStatus SUSPENDED u]> (users db))
            (profiles db),
       Ok (set_accountStatus SUSPENDED u))
  end.
Proof.
  unfold UsersService.suspend, try_catch, user_update.
  by destruct (users db !! userId).
Qed.

Lemma setBackgroundStatus_run (status : BackgroundStatus) :
  UsersService.setBackgroundStatus userId status db =
  match users db !! userId with
  | None => (db, Throw NotFoundException)
  | Some u =>
      (mkDB (<[userId := set_backgroundStatus status u]> (users db))
            (profiles db),
       Ok (set_backgroundStatus status u))
  end.
Proof.
  unfold UsersService.setBackgroundStatus, try_catch, bind,
    executeRaw_update_User, user_findUnique.
  destruct (users db !! userId) as [u|] eqn:Hu; simpl.
  - by rewrite lookup_insert_eq.
  - by rewrite Hu.
Qed.

Lemma approveProfile_run (now : Timestamp) (uuid : string) :
  AdminService.approveProfile now uuid userId db =
  match users db !! userId with
  | None => (db, Throw NotFoundException)
  | Some u =>
      let u' := set_approvedAt (Some now) u in
      match profiles db !! userId with
      | None =>
          if profileId_taken uuid db
          then (db, Throw (PrismaClientKnownRequestError "P2010"))
          else (mkDB (<[userId := u']> (users db))
                     (<[userId := mkProfile uuid None None None true]>
                        (profiles db)),
                Ok (Some u'))
      | Some p =>
          (mkDB (<[userId := u']> (users db))
                (if isComplete p then profiles db
                 else <[userId := set_isComplete true p]> (profiles db)),
           Ok (Some u'))
      end
  end.
Proof.
  unfold AdminService.approveProfile, bind, user_findUnique_include_profile,
    executeRaw_insert_Profile, executeRaw_update_Profile,
    executeRaw_update_User, user_findUnique, ret, throw.
  destruct (users db !! userId) as [u|] eqn:Hu; [|done].
  destruct (profiles db !! userId) as [p|] eqn:Hp.
  - destruct (isComplete p); simpl.
    + rewrite Hu; simpl. by rewrite lookup_insert_eq.
    + rewrite Hp; simpl. rewrite Hu; simpl. by rewrite lookup_insert_eq.
  - destruct (profileId_taken uuid db); [done|].
    rewrite Hp, Hu; simpl. rewrite Hu; simpl. by rewrite lookup_insert_eq.
Qed.

Lemma updateUser_run (newProfileId : string) (data : UpdateUserDto.t) :
  UsersService.updateUser newProfileId userId data db =
  match users db !! userId with
  | None => (db, Throw NotFoundException)
  | Some u =>
      let u' := UsersService.updateUser_data data u in
      match UpdateUserDto.profile data with
      | None =>
          (mkDB (<[userId := u']> (users db)) (profiles db),
           Ok (u', profiles db !! userId))
      | Some p =>
          match profiles db !! userId with
          | Some q =>
              let q' := UsersService.updateUser_profile p q in
              (mkDB (<[userId := u']> (users db))
                    (<[userId := q']> (profiles db)),
               Ok (u', Some q'))
          | None =>
              if profileId_taken newProfileId db
              then (db, Throw ConflictException)
              else
                let q' := mkProfile newProfileId
                            (UpdateUserProfileDto.bio p)
                            (UpdateUserProfileDto.location p)
                            (UpdateUserProfileDto.experience p) false in
                (mkDB (<[userId := u']> (users db))
                      (<[userId := q']> (profiles db)),
                 Ok (u', Some q'))
          end
      end
  end.
Proof.
  unfold UsersService.updateUser, try_catch, bind, user_findUnique,
    user_update_include_profile, throw.
  destruct (users db !! userId) as [u|] eqn:Hu; simpl; [|done].
  rewrite Hu.
  destruct (UpdateUserDto.profile data) as [p|]; [|done].
  destruct (profiles db !! userId) as [q|]; [done|].
  by destruct (profileId_taken newProfileId db).
Qed.

Lemma createUserWithRole_run (newProfileId : string)
    (input : CreateUserDto.t) (r : Role) :
  UsersService.createUserWithRole userId newProfileId input r db =
  let u := mkUser (CreateUserDto.email input) (CreateUserDto.password input)
                  (CreateUserDto.fullName input) r
                  PENDING_PAYMENT None PENDING in
  if bool_decide (is_Some (users db !! userId))
     || email_taken (CreateUserDto.email input) db
  then (db, Throw ConflictException)
  else match CreateUserDto.profile input with
       | None => (mkDB (<[userId := u]> (users db)) (profiles db), Ok u)
       | Some p =>
           if profileId_taken newProfileId db
              || bool_decide (is_Some (profiles db !! userId))
           then (db, Throw ConflictException)
           else (mkDB (<[userId := u]> (users db))
                      (<[userId := mkProfile newProfileId
                                     (CreateUserProfileDto.bio p)
                                     (CreateUserProfileDto.location p)
                                     (CreateUserProfileDto.experience p)
                                     false]> (profiles db)),
                 Ok u)
       end.
Proof.
  unfold UsersService.createUserWithRole, try_catch, user_create.
  destruct (bool_decide (is_Some (users db !! userId))
            || email_taken (CreateUserDto.email input) db); [done|].
  destruct (CreateUserDto.profile input) as [p|]; [|done].
  by destruct (profileId_taken newProfileId db
               || bool_decide (is_Some (profiles db !! userId))).
Qed.

(** The outer [try]/[catch] of [createParent] and [createNanny] passes
    on what [createUserWithRole] returns or throws. *)
Lemma createParent_run (newProfileId : string) (input : CreateUserDto.t) :
  UsersService.createParent userId newProfileId input db =
  UsersService.createUserWithRole userId newProfileId input PARENT db.
Proof.
  unfold UsersService.createParent, try_catch at 1.
  rewrite createUserWithRole_run; simpl.
  destruct (bool_decide (is_Some (users db !! userId))
            || email_taken (CreateUserDto.email input) db); [done|].
  destruct (CreateUserDto.profile input) as [p|]; [|done].
  by destruct (profileId_taken newProfileId db
               || bool_decide (is_Some (profiles db !! userId))).
Qed.

Lemma createNanny_run (newProfileId : string) (input : CreateUserDto.t) :
  UsersService.createNanny userId newProfileId input db =
  UsersService.createUserWithRole userId newProfileId input NANNY db.
Proof.
  unfold UsersService.createNanny, try_catch at 1.
  rewrite createUserWithRole_run; simpl.
  destruct (bool_decide (is_Some (users db !! userId))
            || email_taken (CreateUserDto.email input) db); [done|].
  destruct (CreateUserDto.profile input) as [p|]; [|done].
  by destruct (profileId_taken newProfileId db
               || bool_decide (is_Some (profiles db !! userId))).
Qed.

Lemma getById_run :
  UsersService.getById userId db =
  match users db !! userId with
  | None => (db, Throw NotFoundException)
  | Some u => (db, Ok (u, profiles db !! userId))
  end.
Proof.
  unfold UsersService.getById, try_catch, bind,
    user_findUnique_include_profile.
  by destruct (users db !! userId).
Qed.

End Runs.

(** ** The gate *)

(** C1: for an existing user [canAccessServices] returns, writes nothing,
    and its result is true exactly when the account is ACTIVE, a profile
    exists with [isComplete] true, the background status is PASSED and
    [approvedAt] is not null; with [approvedAt] null it is false whatever
    the other fields are. *)
Theorem canAccessServices_iff_gate (db : DB) (userId : string) (u : User) :
  users db !! userId = Some u ->
  exists b : bool,
    UsersService.canAccessServices userId db = (db, Ok b) /\
    (b = true <->
       accountStatus u = ACTIVE /\
       (exists p, profiles db !! userId = Some p /\ isComplete p = true) /\
       backgroundStatus u = PASSED /\
       approvedAt u <> None) /\
    (approvedAt u = None -> b = false).
Proof.
  intros Hu. rewrite canAccessServices_run, Hu.
  eexists; split; [reflexivity|]. split.
  - rewrite !andb_true_iff, !bool_decide_eq_true.
    unfold UsersService.Boolean_isComplete, UsersService.Boolean_date.
    split.
    + intros [[[Ha Hp] Hb] Ht]. repeat split; [done| |done|].
      * destruct (profiles db !! userId) as [p|]; [by exists p|done].
      * by destruct (approvedAt u).
    + intros (Ha & (p & Hp & Hc) & Hb & Ht). rewrite Hp.
      repeat split; [done|done|done|]. by destruct (approvedAt u).
  - intros ->. simpl. by rewrite andb_false_r.
Qed.

Lemma canAccessServices_iff_gate_witness :
  users db_ann !! "u1" = Some ann_row /\
  exists b : bool,
    UsersService.canAccessServices "u1" db_ann = (db_ann, Ok b) /\
    (b = true <->
       accountStatus ann_row = ACTIVE /\
       (exists p, profiles db_ann !! "u1" = Some p /\ isComplete p = true) /\
       backgroundStatus ann_row = PASSED /\
       approvedAt ann_row <> None) /\
    (approvedAt ann_row = None -> b = false).
Proof.
  split; [reflexivity|].
  apply (canAccessServices_iff_gate db_ann "u1" ann_row). reflexivity.
Defined.

(** C3: with an identifier that references no user, [approveProfile],
    [setBackgroundStatus] and [canAccessServices] throw NotFoundException
    and write nothing; [activateAfterPayment] has no such check and lets
    the client's own error P2025 through, which is not a
    NotFoundException. *)
Theorem gate_operations_on_missing_user (db : DB) (userId : string)
    (now : Timestamp) (uuid : string) (status : BackgroundStatus) :
  users db !! userId = None ->
  AdminService.approveProfile now uuid userId db = (db, Throw NotFoundException) /\
  UsersService.setBackgroundStatus userId status db = (db, Throw NotFoundException) /\
  UsersService.canAccessServices userId db = (db, Throw NotFoundException) /\
  AdminService.activateAfterPayment userId db
    = (db, Throw (PrismaClientKnownRequestError "P2025")) /\
  snd (AdminService.activateAfterPayment userId db) <> Throw NotFoundException.
Proof.
  intros Hu.
  rewrite approveProfile_run, setBackgroundStatus_run, canAccessServices_run,
    activateAfterPayment_run, Hu.
  by repeat split.
Qed.

Lemma gate_operations_on_missing_user_witness :
  users db_ann !! "ghost" = None /\
  AdminService.activateAfterPayment "ghost" db_ann
    = (db_ann, Throw (PrismaClientKnownRequestError "P2025")).
Proof.
  split; [reflexivity|].
  apply (gate_operations_on_missing_user db_ann "ghost" 0 "p9" PASSED).
  reflexivity.
Defined.

(** C4: for an existing user, whatever the account status was (SUSPENDED
    included), [activateAfterPayment] returns the updated row, whose
    account status is ACTIVE, and stores it. *)
Theorem activateAfterPayment_sets_active (db : DB) (userId : string) (u : User) :
  users db !! userId = Some u ->
  exists db' u',
    AdminService.activateAfterPayment userId db = (db', Ok u') /\
    u' = set_accountStatus ACTIVE u /\
    accountStatus u' = ACTIVE /\
    users db' !! userId = Some u' /\
    profiles db' = profiles db.
Proof.
  intros Hu. rewrite activateAfterPayment_run, Hu.
  eexists _, _. split; [reflexivity|]. simpl.
  by rewrite lookup_insert_eq.
Qed.

Lemma activateAfterPayment_sets_active_witness :
  let db := fst (UsersService.suspend "u1" db_ann) in
  users db !! "u1" = Some (set_accountStatus SUSPENDED ann_row) /\
  exists db' u',
    AdminService.activateAfterPayment "u1" db = (db', Ok u') /\
    u' = set_accountStatus ACTIVE (set_accountStatus SUSPENDED ann_row) /\
    accountStatus u' = ACTIVE /\
    users db' !! "u1" = Some u' /\
    profiles db' = profiles db.
Proof.
  split; [reflexivity|].
  apply (activateAfterPayment_sets_active
           (fst (UsersService.suspend "u1" db_ann)) "u1"
           (set_accountStatus SUSPENDED ann_row)).
  reflexivity.
Defined.

(** C6: for an existing user, [approveProfile] (given an unused identifier
    for the profile it may have to insert) returns the refreshed row;
    afterwards the user has a profile with [isComplete] true (a new one
    if there was none, the old one marked complete otherwise) and
    [approvedAt] holds the current time. *)
Theorem approveProfile_post (db : DB) (userId : string) (u : User)
    (now : Timestamp) (uuid : string) :
  users db !! userId = Some u ->
  (profiles db !! userId = None -> profileId_taken uuid db = false) ->
  exists db' u' p',
    AdminService.approveProfile now uuid userId db = (db', Ok (Some u')) /\
    users db' !! userId = Some u' /\
    approvedAt u' = Some now /\
    profiles db' !! userId = Some p' /\
    isComplete p' = true /\
    (profiles db !! userId = None -> p' = mkProfile uuid None None None true) /\
    (forall p, profiles db !! userId = Some p -> p' = set_isComplete true p).
Proof.
  intros Hu Hfresh. rewrite approveProfile_run, Hu.
  destruct (profiles db !! userId) as [p|] eqn:Hp; simpl.
  - exists (mkDB (<[userId := set_approvedAt (Some now) u]> (users db))
                 (if isComplete p then profiles db
                  else <[userId := set_isComplete true p]> (profiles db))),
           (set_approvedAt (Some now) u), (set_isComplete true p).
    simpl. rewrite lookup_insert_eq.
    repeat split; [| done | by intros; simplify_eq].
    destruct (isComplete p) eqn:Hc.
    + rewrite Hp. f_equal. destruct p; simpl in *. by subst.
    + by rewrite lookup_insert_eq.
  - rewrite Hfresh by done.
    eexists _, _, _. split; [reflexivity|]. simpl.
    rewrite !lookup_insert_eq. by repeat split.
Qed.

Lemma approveProfile_post_witness :
  users db_ben !! "u2" = Some ben_row /\
  exists db' u' p',
    AdminService.approveProfile 1000 "p3" "u2" db_ben = (db', Ok (Some u')) /\
    users db' !! "u2" = Some u' /\
    approvedAt u' = Some 1000 /\
    profiles db' !! "u2" = Some p' /\
    isComplete p' = true /\
    (profiles db_ben !! "u2" = None -> p' = mkProfile "p3" None None None true) /\
    (forall p, profiles db_ben !! "u2" = Some p -> p' = set_isComplete true p).
Proof.
  split; [reflexivity|].
  apply (approveProfile_post db_ben "u2" ben_row 1000 "p3").
  - reflexivity.
  - intros H. vm_compute in H. discriminate H.
Defined.

(** C7: for an existing user and any of the three statuses,
    [setBackgroundStatus] returns the updated row; the background status
    is the given one, and the account status, [approvedAt], the other
    columns of the user, every other user and all the profiles are as
    before. *)
Theorem setBackgroundStatus_frame (db : DB) (userId : string) (u : User)
    (status : BackgroundStatus) :
  users db !! userId = Some u ->
  exists db' u',
    UsersService.setBackgroundStatus userId status db = (db', Ok u') /\
    users db' = <[userId := u']> (users db) /\
    profiles db' = profiles db /\
    backgroundStatus u' = status /\
    accountStatus u' = accountStatus u /\
    approvedAt u' = approvedAt u /\
    (email u', password u', fullName u', role u')
      = (email u, password u, fullName u, role u).
Proof.
  intros Hu. rewrite setBackgroundStatus_run, Hu.
  by eexists _, _.
Qed.

Lemma setBackgroundStatus_frame_witness :
  users db_ben_approved !! "u2" = Some (set_approvedAt (Some 1000) ben_row) /\
  exists db' u',
    UsersService.setBackgroundStatus "u2" FAILED db_ben_approved = (db', Ok u') /\
    users db' = <["u2" := u']> (users db_ben_approved) /\
    profiles db' = profiles db_ben_approved /\
    backgroundStatus u' = FAILED /\
    accountStatus u' = accountStatus (set_approvedAt (Some 1000) ben_row) /\
    approvedAt u' = approvedAt (set_approvedAt (Some 1000) ben_row) /\
    (email u', password u', fullName u', role u')
      = (email (set_approvedAt (Some 1000) ben_row),
         password (set_approvedAt (Some 1000) ben_row),
         fullName (set_approvedAt (Some 1000) ben_row),
         role (set_approvedAt (Some 1000) ben_row)).
Proof.
  split; [reflexivity|].
  apply (setBackgroundStatus_frame db_ben_approved "u2"
           (set_approvedAt (Some 1000) ben_row) FAILED).
  reflexivity.
Defined.

(** C10: for an existing user, [suspend] returns the updated row; the
    account status is SUSPENDED, every other column of the user, every
    other user and all the profiles are as before, and
    [canAccessServices] is false right after. *)
Theorem suspend_frame (db : DB) (userId : string) (u : User) :
  users db !! userId = Some u ->
  exists db' u',
    UsersService.suspend userId db = (db', Ok u') /\
    users db' = <[userId := u']> (users db) /\
    profiles db' = profiles db /\
    accountStatus u' = SUSPENDED /\
    approvedAt u' = approvedAt u /\
    backgroundStatus u' = backgroundStatus u /\
    (email u', password u', fullName u', role u')
      = (email u, password u, fullName u, role u) /\
    UsersService.canAccessServices userId db' = (db', Ok false).
Proof.
  intros Hu. rewrite suspend_run, Hu.
  eexists _, _. split; [reflexivity|]. repeat split.
  rewrite canAccessServices_run. simpl. by rewrite lookup_insert_eq.
Qed.

Lemma suspend_frame_witness :
  users db_ann !! "u1" = Some ann_row /\
  exists db' u',
    UsersService.suspend "u1" db_ann = (db', Ok u') /\
    users db' = <["u1" := u']> (users db_ann) /\
    profiles db' = profiles db_ann /\
    accountStatus u' = SUSPENDED /\
    approvedAt u' = approvedAt ann_row /\
    backgroundStatus u' = backgroundStatus ann_row /\
    (email u', password u', fullName u', role u')
      = (email ann_row, password ann_row, fullName ann_row, role ann_row) /\
    UsersService.canAccessServices "u1" db' = (db', Ok false).
Proof.
  split; [reflexivity|].
  apply (suspend_frame db_ann "u1" ann_row). reflexivity.
Defined.

(** C5: a user with account status PENDING_PAYMENT, no profile, background
    status PENDING and [approvedAt] null is refused by
    [canAccessServices]; after [activateAfterPayment], then
    [setBackgroundStatus] with PASSED, then [approveProfile], each of
    which returns, the same user is let through. *)
Theorem signup_scenario (db : DB) (userId : string) (u : User)
    (now : Timestamp) (uuid : string) :
  users db !! userId = Some u ->
  accountStatus u = PENDING_PAYMENT ->
  profiles db !! userId = None ->
  backgroundStatus u = PENDING ->
  approvedAt u = None ->
  profileId_taken uuid db = false ->
  exists db1 u1 db2 u2 db3 u3,
    UsersService.canAccessServices userId db = (db, Ok false) /\
    AdminService.activateAfterPayment userId db = (db1, Ok u1) /\
    UsersService.setBackgroundStatus userId PASSED db1 = (db2, Ok u2) /\
    AdminService.approveProfile now uuid userId db2 = (db3, Ok (Some u3)) /\
    UsersService.canAccessServices userId db3 = (db3, Ok true).
Proof.
  intros Hu Ha Hp Hb Ht Hfresh.
  rewrite canAccessServices_run, activateAfterPayment_run, Hu.
  eexists _, _, _, _, _, _.
  split; [by rewrite Ha|]. split; [reflexivity|].
  rewrite setBackgroundStatus_run. simpl. rewrite lookup_insert_eq.
  split; [reflexivity|].
  rewrite approveProfile_run. simpl. rewrite lookup_insert_eq, Hp.
  unfold profileId_taken in *. simpl. rewrite Hfresh.
  split; [reflexivity|].
  rewrite canAccessServices_run. simpl. by rewrite !lookup_insert_eq.
Qed.

Lemma signup_scenario_witness :
  users db_ann !! "u1" = Some ann_row /\
  exists db1 u1 db2 u2 db3 u3,
    UsersService.canAccessServices "u1" db_ann = (db_ann, Ok false) /\
    AdminService.activateAfterPayment "u1" db_ann = (db1, Ok u1) /\
    UsersService.setBackgroundStatus "u1" PASSED db1 = (db2, Ok u2) /\
    AdminService.approveProfile 1000 "p1" "u1" db2 = (db3, Ok (Some u3)) /\
    UsersService.canAccessServices "u1" db3 = (db3, Ok true).
Proof.
  split; [reflexivity|].
  apply (signup_scenario db_ann "u1" ann_row 1000 "p1"); reflexivity.
Defined.

(** ** Approving twice *)

(** C2, as stated, fails: a second [approveProfile] at a later time
    overwrites [approvedAt], so the store after two calls is not the store
    after the first. *)
Lemma approveProfile_twice_differs :
  users db_ben !! "u2" = Some ben_row /\
  fst (AdminService.approveProfile 2000 "p4" "u2"
         (fst (AdminService.approveProfile 1000 "p3" "u2" db_ben)))
  <> fst (AdminService.approveProfile 1000 "p3" "u2" db_ben).
Proof.
  split; [reflexivity|]. intros H.
  apply (f_equal (fun d => approvedAt <$> users d !! "u2")) in H.
  vm_compute in H. discriminate H.
Qed.

(** C2, amended: once [approveProfile] has returned for a user, calling
    it again returns too, leaves every profile and every other column and
    user as the first call left them, and only overwrites [approvedAt]
    with the time of the second call: the store is the one a single call
    at that later time would have produced, and when both calls see the
    same time the second changes nothing. *)
Theorem approveProfile_twice (db db1 : DB) (userId : string)
    (now1 now2 : Timestamp) (uuid1 uuid2 : string) (r1 : option User) :
  AdminService.approveProfile now1 uuid1 userId db = (db1, Ok r1) ->
  exists u1,
    r1 = Some u1 /\
    users db1 !! userId = Some u1 /\
    AdminService.approveProfile now2 uuid2 userId db1
      = (mkDB (<[userId := set_approvedAt (Some now2) u1]> (users db1))
              (profiles db1),
         Ok (Some (set_approvedAt (Some now2) u1))) /\
    fst (AdminService.approveProfile now2 uuid2 userId db1)
      = fst (AdminService.approveProfile now2 uuid1 userId db) /\
    (now2 = now1 ->
     AdminService.approveProfile now2 uuid2 userId db1 = (db1, Ok r1)).
Proof.
  intros H1. rewrite approveProfile_run in H1.
  rewrite (approveProfile_run db).
  destruct (users db !! userId) as [u|] eqn:Hu; [|done].
  assert (Hset : forall t t', set_approvedAt t' (set_approvedAt t u)
                              = set_approvedAt t' u) by done.
  simpl in H1.
  destruct (profiles db !! userId) as [p|] eqn:Hp.
  - simplify_eq. eexists; split; [reflexivity|].
    rewrite approveProfile_run. simpl. rewrite lookup_insert_eq.
    split; [reflexivity|].
    assert (Hc : exists p', (if isComplete p then profiles db
                   else <[userId := set_isComplete true p]> (profiles db))
                  !! userId = Some p' /\ isComplete p' = true).
    { destruct (isComplete p) eqn:Hc; [by exists p|].
      exists (set_isComplete true p). by rewrite lookup_insert_eq. }
    destruct Hc as (p' & -> & ->). simpl.
    rewrite Hset, insert_insert_eq. repeat split.
    by intros ->.
  - destruct (profileId_taken uuid1 db) eqn:Hfresh; simplify_eq.
    eexists; split; [reflexivity|].
    rewrite approveProfile_run. simpl. rewrite !lookup_insert_eq. simpl.
    split; [reflexivity|].
    rewrite Hset, insert_insert_eq. repeat split.
    by intros ->.
Qed.

Lemma approveProfile_twice_witness :
  exists u1,
    Some (set_approvedAt (Some 1000) ben_row) = Some u1 /\
    users db_ben_approved !! "u2" = Some u1 /\
    AdminService.approveProfile 2000 "p4" "u2" db_ben_approved
      = (mkDB (<["u2" := set_approvedAt (Some 2000) u1]> (users db_ben_approved))
              (profiles db_ben_approved),
         Ok (Some (set_approvedAt (Some 2000) u1))) /\
    fst (AdminService.approveProfile 2000 "p4" "u2" db_ben_approved)
      = fst (AdminService.approveProfile 2000 "p3" "u2" db_ben) /\
    (2000 = 1000 ->
     AdminService.approveProfile 2000 "p4" "u2" db_ben_approved
     = (db_ben_approved, Ok (Some (set_approvedAt (Some 1000) ben_row)))).
Proof.
  apply (approveProfile_twice db_ben db_ben_approved "u2" 1000 2000 "p3" "p4"
           (Some (set_approvedAt (Some 1000) ben_row))).
  reflexivity.
Defined.

(** ** Who writes [isComplete] and [approvedAt] *)

Section Kept.

Lemma isComplete_kept_refl (m : gmap string Profile) : isComplete_kept m m.
Proof.
  intros k. destruct (m !! k) as [p|] eqn:Hk; [by exists p | done].
Qed.

Lemma isComplete_kept_insert_new (m : gmap string Profile) (i : string)
    (q : Profile) :
  m !! i = None -> isComplete q = false -> isComplete_kept m (<[i := q]> m).
Proof.
  intros Hi Hq k. destruct (decide (i = k)) as [->|Hne].
  - rewrite Hi, lookup_insert_eq. by intros p' [= <-].
  - rewrite lookup_insert_ne by done. apply isComplete_kept_refl.
Qed.

Lemma isComplete_kept_insert_same (m : gmap string Profile) (i : string)
    (p q : Profile) :
  m !! i = Some p -> isComplete q = isComplete p ->
  isComplete_kept m (<[i := q]> m).
Proof.
  intros Hi Hq k. destruct (decide (i = k)) as [->|Hne].
  - rewrite Hi, lookup_insert_eq. by exists q.
  - rewrite lookup_insert_ne by done. apply isComplete_kept_refl.
Qed.

Lemma approvedAt_kept_refl (m : gmap string User) : approvedAt_kept m m.
Proof.
  intros k. destruct (m !! k) as [u|] eqn:Hk; [by exists u | done].
Qed.

Lemma approvedAt_kept_insert_new (m : gmap string User) (i : string)
    (v : User) :
  m !! i = None -> approvedAt v = None -> approvedAt_kept m (<[i := v]> m).
Proof.
  intros Hi Hv k. destruct (decide (i = k)) as [->|Hne].
  - rewrite Hi, lookup_insert_eq. by intros u' [= <-].
  - rewrite lookup_insert_ne by done. apply approvedAt_kept_refl.
Qed.

Lemma approvedAt_kept_insert_same (m : gmap string User) (i : string)
    (u v : User) :
  m !! i = Some u -> approvedAt v = approvedAt u ->
  approvedAt_kept m (<[i := v]> m).
Proof.
  intros Hi Hv k. destruct (decide (i = k)) as [->|Hne].
  - rewrite Hi, lookup_insert_eq. by exists v.
  - rewrite lookup_insert_ne by done. apply approvedAt_kept_refl.
Qed.

Lemma createUserWithRole_kept (db : DB) (newId newProfileId : string)
    (input : CreateUserDto.t) (r : Role) :
  let db' := fst (UsersService.createUserWithRole newId newProfileId input r db) in
  isComplete_kept (profiles db) (profiles db') /\
  approvedAt_kept (users db) (users db').
Proof.
  rewrite createUserWithRole_run. simpl.
  destruct (bool_decide (is_Some (users db !! newId))) eqn:Hid; simpl.
  { split; [apply isComplete_kept_refl | apply approvedAt_kept_refl]. }
  apply bool_decide_eq_false in Hid.
  assert (users db !! newId = None) as Hnew
    by (by destruct (users db !! newId); [destruct Hid|]).
  destruct (email_taken (CreateUserDto.email input) db); simpl.
  { split; [apply isComplete_kept_refl | apply approvedAt_kept_refl]. }
  destruct (CreateUserDto.profile input) as [p|]; simpl.
  - destruct (profileId_taken newProfileId db); simpl.
    { split; [apply isComplete_kept_refl | apply approvedAt_kept_refl]. }
    destruct (bool_decide (is_Some (profiles db !! newId))) eqn:Hpr; simpl.
    { split; [apply isComplete_kept_refl | apply approvedAt_kept_refl]. }
    apply bool_decide_eq_false in Hpr.
    assert (profiles db !! newId = None)
      by (by destruct (profiles db !! newId); [destruct Hpr|]).
    split; [by apply isComplete_kept_insert_new
           | by apply approvedAt_kept_insert_new].
  - split; [apply isComplete_kept_refl
           | by apply approvedAt_kept_insert_new].
Qed.

(** Every call other than [approveProfile] keeps [isComplete] and
    [approvedAt] as they are. *)
Lemma exec_kept (c : Call) (db : DB) :
  is_approveProfile c = false ->
  isComplete_kept (profiles db) (profiles (exec c db)) /\
  approvedAt_kept (users db) (users (exec c db)).
Proof.
  destruct c; intros Hc; try discriminate Hc; unfold exec.
  - rewrite activateAfterPayment_run.
    destruct (users db !! userId) as [u|] eqn:Hu; simpl;
      (split; [apply isComplete_kept_refl|]);
      [by eapply approvedAt_kept_insert_same | apply approvedAt_kept_refl].
  - rewrite createParent_run. apply createUserWithRole_kept.
  - rewrite createNanny_run. apply createUserWithRole_kept.
  - rewrite setBackgroundStatus_run.
    destruct (users db !! userId) as [u|] eqn:Hu; simpl;
      (split; [apply isComplete_kept_refl|]);
      [by eapply approvedAt_kept_insert_same | apply approvedAt_kept_refl].
  - rewrite canAccessServices_run.
    destruct (users db !! userId); simpl;
      (split; [apply isComplete_kept_refl | apply approvedAt_kept_refl]).
  - rewrite getById_run.
    destruct (users db !! id); simpl;
      (split; [apply isComplete_kept_refl | apply approvedAt_kept_refl]).
  - rewrite updateUser_run.
    destruct (users db !! id) as [u|] eqn:Hu; simpl;
      [|split; [apply isComplete_kept_refl | apply approvedAt_kept_refl]].
    destruct (UpdateUserDto.profile data) as [p|]; simpl;
      [|split; [apply isComplete_kept_refl
               | by eapply approvedAt_kept_insert_same]].
    destruct (profiles db !! id) as [q|] eqn:Hq; simpl.
    + split; [by eapply isComplete_kept_insert_same
             | by eapply approvedAt_kept_insert_same].
    + destruct (profileId_taken newProfileId db); simpl;
        [split; [apply isComplete_kept_refl | apply approvedAt_kept_refl]|].
      split; [by apply isComplete_kept_insert_new
             | by eapply approvedAt_kept_insert_same].
  - rewrite setAccountActive_run.
    destruct (users db !! userId) as [u|] eqn:Hu; simpl;
      (split; [apply isComplete_kept_refl|]);
      [by eapply approvedAt_kept_insert_same | apply approvedAt_kept_refl].
  - rewrite suspend_run.
    destruct (users db !! userId) as [u|] eqn:Hu; simpl;
      (split; [apply isComplete_kept_refl|]);
      [by eapply approvedAt_kept_insert_same | apply approvedAt_kept_refl].
Qed.

End Kept.

(** C8, as stated, fails: a profile updated through [updateUser] does not
    always have [isComplete] false.  Ben's profile, once approved, is
    still complete after he edits his bio. *)
Lemma updateUser_on_complete_profile :
  UsersService.updateUser "p5" "u2" new_bio db_ben_approved
  = (mkDB (users db_ben_approved)
          (<["u2" := mkProfile "p2" (Some "Six years with toddlers") None
                       (Some 5) true]> (profiles db_ben_approved)),
     Ok (set_approvedAt (Some 1000) ben_row,
         Some (mkProfile "p2" (Some "Six years with toddlers") None
                 (Some 5) true))) /\
  isComplete <$> profiles (fst (UsersService.updateUser "p5" "u2" new_bio
                                  db_ben_approved)) !! "u2"
  = Some true.
Proof.
  split; vm_compute; reflexivity.
Qed.

(** C8, amended: [isComplete] is written by [approveProfile] only.  Under
    every other call ([createParent], [createNanny], [updateUser],
    [activateAfterPayment], [setBackgroundStatus], [setAccountActive],
    [suspend], [canAccessServices], [getById]) a profile that existed keeps
    the [isComplete] it had, true or false, and a profile that the call
    created has [isComplete] false. *)
Theorem isComplete_written_only_by_approveProfile (c : Call) (db : DB)
    (userId : string) :
  is_approveProfile c = false ->
  match profiles db !! userId with
  | Some p =>
      exists p', profiles (exec c db) !! userId = Some p' /\
                 isComplete p' = isComplete p
  | None =>
      forall p', profiles (exec c db) !! userId = Some p' ->
                 isComplete p' = false
  end.
Proof. intros Hc. by apply exec_kept. Qed.

Lemma isComplete_written_only_by_approveProfile_witness :
  match profiles db_ann !! "u1" with
  | Some p =>
      exists p', profiles (exec (UpdateUser "p5" "u1" new_bio) db_ann) !! "u1"
                 = Some p' /\
                 isComplete p' = isComplete p
  | None =>
      forall p', profiles (exec (UpdateUser "p5" "u1" new_bio) db_ann) !! "u1"
                 = Some p' ->
                 isComplete p' = false
  end.
Proof.
  apply (isComplete_written_only_by_approveProfile
           (UpdateUser "p5" "u1" new_bio) db_ann "u1").
  reflexivity.
Defined.

(** C9: under every call a user that existed still exists; if
    [approvedAt] was not null before the call it is not null after it,
    and every call other than [approveProfile] leaves [approvedAt] exactly
    as it was. *)
Theorem approvedAt_never_cleared (c : Call) (db : DB) (userId : string)
    (u : User) :
  users db !! userId = Some u ->
  exists u',
    users (exec c db) !! userId = Some u' /\
    (approvedAt u <> None -> approvedAt u' <> None) /\
    (is_approveProfile c = false -> approvedAt u' = approvedAt u).
Proof.
  intros Hu. destruct (is_approveProfile c) eqn:Hc.
  - destruct c; try discriminate Hc. unfold exec.
    rewrite approveProfile_run.
    assert (Hsame : exists u', users db !! userId = Some u' /\
              (approvedAt u <> None -> approvedAt u' <> None) /\
              (true = false -> approvedAt u' = approvedAt u))
      by (by exists u).
    destruct (users db !! userId0) as [v|] eqn:Hv; [|done]. simpl.
    assert (Hins : exists u',
              <[userId0 := set_approvedAt (Some now) v]> (users db) !! userId
                = Some u' /\
              (approvedAt u <> None -> approvedAt u' <> None) /\
              (true = false -> approvedAt u' = approvedAt u)).
    { destruct (decide (userId0 = userId)) as [->|Hne].
      - rewrite lookup_insert_eq. by eexists.
      - rewrite lookup_insert_ne by done. by exists u. }
    destruct (profiles db !! userId0) as [p|]; [done|].
    by destruct (profileId_taken uuid db).
  - destruct (exec_kept c db Hc) as [_ Hk]. specialize (Hk userId).
    rewrite Hu in Hk. destruct Hk as (u' & Hu' & Heq).
    exists u'. rewrite Heq. by repeat split.
Qed.

Lemma approvedAt_never_cleared_witness :
  users db_ben_approved !! "u2" = Some (set_approvedAt (Some 1000) ben_row) /\
  exists u',
    users (exec (Suspend "u2") db_ben_approved) !! "u2" = Some u' /\
    (approvedAt (set_approvedAt (Some 1000) ben_row) <> None ->
     approvedAt u' <> None) /\
    (is_approveProfile (Suspend "u2") = false ->
     approvedAt u' = approvedAt (set_approvedAt (Some 1000) ben_row)).
Proof.
  split; [reflexivity|].
  apply (approvedAt_never_cleared (Suspend "u2") db_ben_approved "u2"
           (set_approvedAt (Some 1000) ben_row)).
  reflexivity.
Defined.

(** ** Beyond the gate: errors *)

Ltac run_rewrite :=
  rewrite ?approveProfile_run, ?activateAfterPayment_run, ?createParent_run,
    ?createNanny_run, ?createUserWithRole_run, ?setBackgroundStatus_run,
    ?canAccessServices_run, ?getById_run, ?updateUser_run,
    ?setAccountActive_run, ?suspend_run.


Lemma email_taken_false (db : DB) (e : string) :
  email_taken e db = false <->
  forall k u, users db !! k = Some u -> email u <> e.
Proof.
  unfold email_taken. rewrite bool_decide_eq_false, map_Exists_lookup.
  split.
  - intros Hn k u Hk He. apply Hn. by exists k, u.
  - intros Ha (k & u & Hk & He). by apply (Ha k u).
Qed.

Lemma profileId_taken_false (db : DB) (pid : string) :
  profileId_taken pid db = false <->
  forall k p, profiles db !! k = Some p -> profileId p <> pid.
Proof.
  unfold profileId_taken. rewrite bool_decide_eq_false, map_Exists_lookup.
  split.
  - intros Hn k p Hk He. apply Hn. by exists k, p.
  - intros Ha (k & p & Hk & He). by apply (Ha k p).
Qed.


(** X2: whatever a method of [UsersService] throws is a NotFoundException,
    a ConflictException or an InternalServerErrorException: no error of
    the database client leaves the service. *)
Theorem UsersService_throws_http_exceptions (c : Call) (db : DB) (e : Exn) :
  in_UsersService c = true ->
  error_of c db = Some e ->
  e = NotFoundException \/ e = ConflictException
  \/ e = InternalServerErrorException.
Proof.
  intros Hc He. destruct c; try discriminate Hc; unfold error_of in He;
    revert He; run_rewrite; simpl; repeat case_match; simpl;
    intros [= <-]; auto.
Qed.

Lemma UsersService_throws_http_exceptions_witness :
  error_of (Suspend "ghost") db_ann = Some InternalServerErrorException /\
  (InternalServerErrorException = NotFoundException
   \/ InternalServerErrorException = ConflictException
   \/ InternalServerErrorException = InternalServerErrorException).
Proof.
  split; [reflexivity|].
  apply (UsersService_throws_http_exceptions (Suspend "ghost") db_ann);
    reflexivity.
Defined.

(** X3: a call that throws has written nothing: the store is as it was
    before the call.  (In the model a call throws for a missing user or a
    violated constraint.) *)
Theorem failed_call_writes_nothing (c : Call) (db : DB) (e : Exn) :
  error_of c db = Some e -> exec c db = db.
Proof.
  intros He. destruct c; unfold error_of in He; unfold exec;
    revert He; run_rewrite; simpl; repeat case_match; simpl; done.
Qed.

Lemma failed_call_writes_nothing_witness :
  error_of (CreateNanny "u3" "p9" ann_again) db_ben = Some ConflictException /\
  exec (CreateNanny "u3" "p9" ann_again) db_ben = db_ben.
Proof.
  split; [reflexivity|].
  apply (failed_call_writes_nothing (CreateNanny "u3" "p9" ann_again) db_ben
           ConflictException).
  reflexivity.
Defined.



(** ** Beyond the gate: creating and editing users *)




(** X6: [updateUser] with none of its optional fields given finds the
    user, changes nothing in the store and returns the row and the
    profile as they are. *)
Theorem updateUser_nothing_given (db : DB) (newProfileId id : string)
    (u : User) :
  users db !! id = Some u ->
  UsersService.updateUser newProfileId id (UpdateUserDto.mk None None None) db
  = (db, Ok (u, profiles db !! id)).
Proof.
  intros Hu. rewrite updateUser_run, Hu. simpl.
  assert (UsersService.updateUser_data (UpdateUserDto.mk None None None) u = u)
    as -> by (by destruct u).
  rewrite insert_id by done. by destruct db.
Qed.

Lemma updateUser_nothing_given_witness :
  users db_ben !! "u2" = Some ben_row /\
  UsersService.updateUser "p9" "u2" no_change db_ben
  = (db_ben, Ok (ben_row, profiles db_ben !! "u2")).
Proof.
  split; [reflexivity|].
  apply (updateUser_nothing_given db_ben "p9" "u2" ben_row). reflexivity.
Defined.

(** X7: [updateUser] with a profile object that has no field set still
    takes the upsert: for a user without a profile it creates one, empty
    and not complete; for a user with a profile it changes nothing. *)
Theorem updateUser_empty_profile (db : DB) (newProfileId id : string)
    (u : User) :
  users db !! id = Some u ->
  let data := UpdateUserDto.mk None None
                (Some (UpdateUserProfileDto.mk None None None)) in
  (forall p, profiles db !! id = Some p ->
     UsersService.updateUser newProfileId id data db = (db, Ok (u, Some p))) /\
  (profiles db !! id = None -> profileId_taken newProfileId db = false ->
     UsersService.updateUser newProfileId id data db
     = (mkDB (users db)
             (<[id := mkProfile newProfileId None None None false]> (profiles db)),
        Ok (u, Some (mkProfile newProfileId None None None false)))).
Proof.
  intros Hu data.
  assert (UsersService.updateUser_data data u = u) as Hd by (by destruct u).
  split.
  - intros p Hp. rewrite updateUser_run, Hu. simpl. rewrite Hp, Hd.
    assert (UsersService.updateUser_profile
              (UpdateUserProfileDto.mk None None None) p = p) as ->
      by (by destruct p).
    rewrite !insert_id by done. by destruct db.
  - intros Hp Hfresh. rewrite updateUser_run, Hu. simpl.
    rewrite Hp, Hfresh, Hd. by rewrite insert_id by done.
Qed.

Lemma updateUser_empty_profile_witness :
  users db_ann !! "u1" = Some ann_row /\
  (forall p, profiles db_ann !! "u1" = Some p ->
     UsersService.updateUser "p9" "u1" empty_profile db_ann
     = (db_ann, Ok (ann_row, Some p))) /\
  (profiles db_ann !! "u1" = None -> profileId_taken "p9" db_ann = false ->
     UsersService.updateUser "p9" "u1" empty_profile db_ann
     = (mkDB (users db_ann)
             (<["u1" := mkProfile "p9" None None None false]> (profiles db_ann)),
        Ok (ann_row, Some (mkProfile "p9" None None None false)))).
Proof.
  split; [reflexivity|].
  apply (updateUser_empty_profile db_ann "p9" "u1" ann_row). reflexivity.
Defined.

(** X8: what [updateUser] returns is what is stored: right after it,
    [getById] returns the same row and profile. *)
Theorem updateUser_then_getById (db db' : DB) (newProfileId id : string)
    (data : UpdateUserDto.t) (r : User * option Profile) :
  UsersService.updateUser newProfileId id data db = (db', Ok r) ->
  UsersService.getById id db' = (db', Ok r).
Proof.
  rewrite updateUser_run, getById_run.
  destruct (users db !! id) as [u|] eqn:Hu; [|done]. simpl.
  destruct (UpdateUserDto.profile data) as [p|].
  - destruct (profiles db !! id) as [q|] eqn:Hq.
    + intros [= <- <-]. simpl. by rewrite !lookup_insert_eq.
    + destruct (profileId_taken newProfileId db); [done|].
      intros [= <- <-]. simpl. by rewrite !lookup_insert_eq.
  - intros [= <- <-]. simpl. by rewrite lookup_insert_eq.
Qed.

Lemma updateUser_then_getById_witness :
  UsersService.getById "u2"
    (fst (UsersService.updateUser "p9" "u2" new_bio db_ben_approved))
  = (fst (UsersService.updateUser "p9" "u2" new_bio db_ben_approved),
     Ok (set_approvedAt (Some 1000) ben_row,
         Some (mkProfile "p2" (Some "Six years with toddlers") None
                 (Some 5) true))).
Proof.
  apply (updateUser_then_getById db_ben_approved _ "p9" "u2" new_bio).
  reflexivity.
Defined.



(** X10: editing a user never changes what the gate says: after
    [updateUser], whether it returned or threw, [canAccessServices] gives
    for every user the answer (or the error) it gave before. *)
Theorem updateUser_keeps_gate (db : DB) (newProfileId id : string)
    (data : UpdateUserDto.t) (k : string) :
  snd (UsersService.canAccessServices k
         (exec (UpdateUser newProfileId id data) db))
  = snd (UsersService.canAccessServices k db).
Proof.
  unfold exec. rewrite updateUser_run, !canAccessServices_run.
  destruct (users db !! id) as [u|] eqn:Hu; [|done]. simpl.
  destruct (decide (id = k)) as [->|Hne].
  - rewrite Hu.
    destruct (UpdateUserDto.profile data) as [p|]; simpl;
      [|by rewrite lookup_insert_eq].
    destruct (profiles db !! k) as [q|] eqn:Hq; simpl.
    + by rewrite !lookup_insert_eq.
    + destruct (profileId_taken newProfileId db); simpl.
      * by rewrite Hu, Hq.
      * rewrite !lookup_insert_eq. reflexivity.
  - destruct (UpdateUserDto.profile data) as [p|]; simpl.
    + destruct (profiles db !! id) as [q|] eqn:Hq; simpl.
      * rewrite !lookup_insert_ne by done. by destruct (users db !! k).
      * destruct (profileId_taken newProfileId db); simpl; [done|].
        rewrite !lookup_insert_ne by done. by destruct (users db !! k).
    + rewrite lookup_insert_ne by done. by destruct (users db !! k).
Qed.

(** ** Beyond the gate: the account status *)

(** X11: [setAccountActive] and [suspend] have no check for a missing
    user: with an identifier that references no user they throw
    InternalServerErrorException, not NotFoundException, and write
    nothing. *)
Theorem status_change_on_missing_user (db : DB) (userId : string) :
  users db !! userId = None ->
  UsersService.setAccountActive userId db
    = (db, Throw InternalServerErrorException) /\
  UsersService.suspend userId db = (db, Throw InternalServerErrorException).
Proof. intros Hu. by rewrite setAccountActive_run, suspend_run, Hu. Qed.

Lemma status_change_on_missing_user_witness :
  users db_ann !! "ghost" = None /\
  UsersService.setAccountActive "ghost" db_ann
    = (db_ann, Throw InternalServerErrorException) /\
  UsersService.suspend "ghost" db_ann
    = (db_ann, Throw InternalServerErrorException).
Proof.
  split; [reflexivity|].
  apply (status_change_on_missing_user db_ann "ghost"). reflexivity.
Defined.

(** X12: on an existing user [UsersService.setAccountActive] and
    [AdminService.activateAfterPayment] are the same operation: the same
    store and the same returned row. *)
Theorem setAccountActive_is_activateAfterPayment (db : DB) (userId : string)
    (u : User) :
  users db !! userId = Some u ->
  UsersService.setAccountActive userId db
  = AdminService.activateAfterPayment userId db.
Proof. intros Hu. by rewrite setAccountActive_run, activateAfterPayment_run, Hu. Qed.

Lemma setAccountActive_is_activateAfterPayment_witness :
  users db_ann !! "u1" = Some ann_row /\
  UsersService.setAccountActive "u1" db_ann
  = AdminService.activateAfterPayment "u1" db_ann.
Proof.
  split; [reflexivity|].
  apply (setAccountActive_is_activateAfterPayment db_ann "u1" ann_row).
  reflexivity.
Defined.



(** X14: of two [setBackgroundStatus] on the same user the last one
    wins: the store is the one the second call alone would have left,
    whether the user exists or not. *)
Theorem setBackgroundStatus_last_wins (db : DB) (userId : string)
    (s1 s2 : BackgroundStatus) :
  exec (SetBackgroundStatus userId s2) (exec (SetBackgroundStatus userId s1) db)
  = exec (SetBackgroundStatus userId s2) db.
Proof.
  unfold exec. rewrite !setBackgroundStatus_run.
  destruct (users db !! userId) as [u|] eqn:Hu; simpl.
  - rewrite lookup_insert_eq. simpl. by rewrite insert_insert_eq.
  - by rewrite Hu.
Qed.

(** X15: the background status is read at every check: for an existing
    user, after [setBackgroundStatus] with PENDING or FAILED
    [canAccessServices] answers false, whatever it answered before. *)
Theorem setBackgroundStatus_not_passed_closes (db : DB) (userId : string)
    (u : User) (status : BackgroundStatus) :
  users db !! userId = Some u ->
  status <> PASSED ->
  snd (UsersService.canAccessServices userId
         (exec (SetBackgroundStatus userId status) db))
  = Ok false.
Proof.
  intros Hu Hs. unfold exec.
  rewrite setBackgroundStatus_run, Hu, canAccessServices_run. simpl.
  rewrite lookup_insert_eq. simpl.
  rewrite (bool_decide_eq_false_2 (status = PASSED)) by done.
  by rewrite andb_false_r.
Qed.

Lemma setBackgroundStatus_not_passed_closes_witness :
  let db := exec_all ben_open db_empty in
  snd (UsersService.canAccessServices "u2" db) = Ok true /\
  snd (UsersService.canAccessServices "u2"
         (exec (SetBackgroundStatus "u2" FAILED) db))
  = Ok false.
Proof.
  split; [reflexivity|].
  apply (setBackgroundStatus_not_passed_closes (exec_all ben_open db_empty) "u2"
           (mkUser "ben@example.com" "hash-b" "Ben" NANNY ACTIVE
                   (Some 1000) PASSED) FAILED); [reflexivity | discriminate].
Defined.

(** X16: the three steps that open the gate for a user can be taken in
    any order: any two of [activateAfterPayment], [setBackgroundStatus]
    and [approveProfile] on the same user leave the same store whichever
    comes first. *)
Theorem gate_steps_commute (db : DB) (userId : string)
    (status : BackgroundStatus) (now : Timestamp) (uuid : string) :
  exec (ActivateAfterPayment userId) (exec (SetBackgroundStatus userId status) db)
  = exec (SetBackgroundStatus userId status) (exec (ActivateAfterPayment userId) db)
  /\
  exec (ApproveProfile now uuid userId) (exec (ActivateAfterPayment userId) db)
  = exec (ActivateAfterPayment userId) (exec (ApproveProfile now uuid userId) db)
  /\
  exec (ApproveProfile now uuid userId) (exec (SetBackgroundStatus userId status) db)
  = exec (SetBackgroundStatus userId status) (exec (ApproveProfile now uuid userId) db).
Proof.
  unfold exec.
  rewrite !approveProfile_run, !activateAfterPayment_run,
    !setBackgroundStatus_run.
  destruct (users db !! userId) as [u|] eqn:Hu; simpl.
  - rewrite !lookup_insert_eq. simpl.
    unfold profileId_taken. simpl. fold (profileId_taken uuid db).
    destruct (profiles db !! userId) as [p|] eqn:Hp; simpl.
    + rewrite !lookup_insert_eq. simpl. by rewrite !insert_insert_eq.
    + destruct (profileId_taken uuid db); simpl.
      * rewrite Hu. simpl. by rewrite !insert_insert_eq.
      * rewrite !lookup_insert_eq. simpl. by rewrite !insert_insert_eq.
  - by rewrite !Hu.
Qed.

(** ** Beyond the gate: what a call can do to the two tables *)

(** A call leaves "User" alone, or rewrites the row of its target keeping
    e-mail and role, or adds a row for its target with an unused e-mail,
    no approval and status PENDING_PAYMENT. *)
Lemma exec_users_cases (c : Call) (db : DB) :
  users (exec c db) = users db
  \/ (exists u u',
        users db !! target c = Some u /\
        users (exec c db) = <[target c := u']> (users db) /\
        email u' = email u /\ role u' = role u /\
        (is_approveProfile c = false -> approvedAt u' = approvedAt u) /\
        (approvedAt u <> None -> approvedAt u' <> None) /\
        (writes_accountStatus c = false -> accountStatus u' = accountStatus u) /\
        (accountStatus u <> PENDING_PAYMENT ->
         accountStatus u' <> PENDING_PAYMENT))
  \/ (exists u',
        users db !! target c = None /\
        users (exec c db) = <[target c := u']> (users db) /\
        email_taken (email u') db = false /\
        approvedAt u' = None).
Proof.
  destruct c; unfold exec; run_rewrite; simpl; repeat case_match; simpl;
    repeat match goal with
           | H : _ || _ = false |- _ => apply orb_false_iff in H as [? ?]
           | H : bool_decide (is_Some _) = false |- _ =>
               apply bool_decide_eq_false, eq_None_not_Some in H
           end;
    first
      [ by left
      | right; left; eexists _, _; split; [reflexivity|];
        split; [reflexivity|]; simpl; repeat split; done
      | right; right; eexists; split; [first [reflexivity | eassumption]|];
        split; [reflexivity|]; by simpl ].
Qed.

(** A call leaves "Profile" alone, or rewrites the profile of its target
    keeping its primary key, or adds a profile for its target under an
    unused primary key; the target is then a user, and the new profile is
    complete exactly when the call is [approveProfile]. *)
Lemma exec_profiles_cases (c : Call) (db : DB) :
  profiles (exec c db) = profiles db
  \/ (exists p p',
        profiles db !! target c = Some p /\
        profiles (exec c db) = <[target c := p']> (profiles db) /\
        profileId p' = profileId p /\
        (is_approveProfile c = false -> isComplete p' = isComplete p) /\
        (isComplete p = true -> isComplete p' = true))
  \/ (exists p',
        profiles db !! target c = None /\
        profiles (exec c db) = <[target c := p']> (profiles db) /\
        profileId_taken (profileId p') db = false /\
        is_Some (users (exec c db) !! target c) /\
        isComplete p' = is_approveProfile c).
Proof.
  destruct c; unfold exec; run_rewrite; simpl; repeat case_match; simpl;
    repeat match goal with
           | H : _ || _ = false |- _ => apply orb_false_iff in H as [? ?]
           | H : bool_decide (is_Some _) = false |- _ =>
               apply bool_decide_eq_false, eq_None_not_Some in H
           end;
    first
      [ by left
      | right; left; eexists _, _; split; [reflexivity|];
        split; [reflexivity|]; simpl; repeat split; done
      | right; right; eexists; split; [first [reflexivity | eassumption]|];
        split; [reflexivity|]; simpl; rewrite lookup_insert_eq; by eauto ].
Qed.

Section Unique.

Context {A B : Type} (f : A -> B).

Lemma unique_insert_same (m : gmap string A) (t : string) (a a' : A) :
  m !! t = Some a -> f a' = f a ->
  (forall i j x y, m !! i = Some x -> m !! j = Some y -> f x = f y -> i = j) ->
  forall i j x y,
    <[t := a']> m !! i = Some x -> <[t := a']> m !! j = Some y ->
    f x = f y -> i = j.
Proof.
  intros Ht Hf Hm i j x y. rewrite !lookup_insert.
  destruct (decide (t = i)) as [Hi|Hi], (decide (t = j)) as [Hj|Hj].
  - congruence.
  - intros [= <-] Hy Hxy. rewrite <- Hi. apply (Hm t j a y); congruence.
  - intros Hx [= <-] Hxy. rewrite <- Hj. apply (Hm i t x a); congruence.
  - apply Hm.
Qed.

Lemma unique_insert_new (m : gmap string A) (t : string) (a' : A) :
  (forall k x, m !! k = Some x -> f x <> f a') ->
  (forall i j x y, m !! i = Some x -> m !! j = Some y -> f x = f y -> i = j) ->
  forall i j x y,
    <[t := a']> m !! i = Some x -> <[t := a']> m !! j = Some y ->
    f x = f y -> i = j.
Proof.
  intros Hnew Hm i j x y. rewrite !lookup_insert.
  destruct (decide (t = i)) as [Hi|Hi], (decide (t = j)) as [Hj|Hj].
  - congruence.
  - intros [= <-] Hy Hxy. by destruct (Hnew j y Hy).
  - intros Hx [= <-] Hxy. by destruct (Hnew i x Hx).
  - apply Hm.
Qed.

End Unique.

(** No call removes a user. *)
Lemma exec_user_stays (c : Call) (db : DB) (k : string) :
  is_Some (users db !! k) -> is_Some (users (exec c db) !! k).
Proof.
  intros Hk.
  destruct (exec_users_cases c db)
    as [-> | [(u & u' & Ht & -> & _) | (u' & Ht & -> & _)]]; [done| |];
    rewrite lookup_insert; by case_decide.
Qed.

(** Every call keeps the constraints of the schema. *)
Lemma exec_schema_ok (c : Call) (db : DB) :
  schema_ok db -> schema_ok (exec c db).
Proof.
  intros (He & Hp & Hf). split; [|split].
  - unfold email_unique.
    destruct (exec_users_cases c db)
      as [-> | [(u & u' & Ht & -> & Hem & _) | (u' & Ht & -> & Hnew & _)]].
    + done.
    + by apply (unique_insert_same email _ _ u).
    + apply (unique_insert_new email); [|done].
      by apply email_taken_false.
  - unfold profileId_unique.
    destruct (exec_profiles_cases c db)
      as [-> | [(p & p' & Ht & -> & Hid & _) | (p' & Ht & -> & Hnew & _)]].
    + done.
    + by apply (unique_insert_same profileId _ _ p).
    + apply (unique_insert_new profileId); [|done].
      by apply profileId_taken_false.
  - intros k q.
    destruct (exec_profiles_cases c db)
      as [-> | [(p & p' & Ht & -> & _) | (p' & Ht & -> & _ & Hu & _)]].
    + intros Hk. apply exec_user_stays. by apply (Hf k q).
    + rewrite lookup_insert. case_decide; subst.
      * intros _. apply exec_user_stays. by apply (Hf (target c) p).
      * intros Hk. apply exec_user_stays. by apply (Hf k q).
    + rewrite lookup_insert. case_decide; subst; [done|].
      intros Hk. apply exec_user_stays. by apply (Hf k q).
Qed.

(** Every call keeps approval and completeness in step. *)
Lemma exec_approval_consistent (c : Call) (db : DB) :
  approval_consistent db -> approval_consistent (exec c db).
Proof.
  intros Hc k. specialize (Hc k). unfold approved, complete_profile in *.
  destruct (is_approveProfile c) eqn:Hap.
  - destruct c; try discriminate Hap. unfold exec.
    rewrite approveProfile_run.
    destruct (users db !! userId) as [u|] eqn:Hu; [|done]. simpl.
    destruct (profiles db !! userId) as [p|] eqn:Hp; simpl.
    + destruct (decide (userId = k)) as [->|Hne].
      * rewrite lookup_insert_eq. split; [|by eauto].
        intros _. destruct (isComplete p) eqn:Hic.
        -- by exists p.
        -- rewrite lookup_insert_eq. by eexists.
      * rewrite lookup_insert_ne by done.
        destruct (isComplete p); [done|]. by rewrite lookup_insert_ne by done.
    + destruct (profileId_taken uuid db); [done|]. simpl.
      destruct (decide (userId = k)) as [->|Hne].
      * rewrite !lookup_insert_eq. split; by eauto.
      * by rewrite !lookup_insert_ne by done.
  - destruct (exec_kept c db Hap) as [Hp Hu].
    specialize (Hp k). specialize (Hu k).
    destruct Hc as [Hc1 Hc2]. split.
    + intros (u' & t & Hu' & Ht).
      destruct (users db !! k) as [u|] eqn:Hk.
      * destruct Hu as (u'' & Hu'' & Heq). simplify_eq.
        destruct Hc1 as (p & Hpk & Hpc); [exists u, t; by rewrite <- Heq|].
        rewrite Hpk in Hp. destruct Hp as (p' & Hp' & Hpe).
        exists p'. by rewrite Hpe.
      * specialize (Hu u' Hu'). congruence.
    + intros (p' & Hp' & Hpc).
      destruct (profiles db !! k) as [p|] eqn:Hk.
      * destruct Hp as (p'' & Hp'' & Heq). simplify_eq.
        destruct Hc2 as (u & t & Huk & Hut); [exists p; by rewrite <- Heq|].
        rewrite Huk in Hu. destruct Hu as (u' & Hu' & Hue).
        exists u', t. by rewrite Hue.
      * specialize (Hp p' Hp'). congruence.
Qed.

Lemma exec_all_snoc (cs : list Call) (c : Call) (db : DB) :
  exec_all (cs ++ [c]) db = exec c (exec_all cs db).
Proof. unfold exec_all. by rewrite foldl_snoc. Qed.

Lemma exec_all_schema_ok (cs : list Call) (db : DB) :
  schema_ok db -> schema_ok (exec_all cs db).
Proof.
  intros Hdb. induction cs as [|c cs IH] using rev_ind; [done|].
  rewrite exec_all_snoc. by apply exec_schema_ok.
Qed.

Lemma exec_all_approval_consistent (cs : list Call) (db : DB) :
  approval_consistent db -> approval_consistent (exec_all cs db).
Proof.
  intros Hdb. induction cs as [|c cs IH] using rev_ind; [done|].
  rewrite exec_all_snoc. by apply exec_approval_consistent.
Qed.

Lemma schema_ok_empty : schema_ok db_empty.
Proof.
  split; [|split].
  - intros i j u v Hi. simpl in Hi. by rewrite lookup_empty in Hi.
  - intros i j p q Hi. simpl in Hi. by rewrite lookup_empty in Hi.
  - intros k p Hk. simpl in Hk. by rewrite lookup_empty in Hk.
Qed.

Lemma approval_consistent_empty : approval_consistent db_empty.
Proof.
  intros k. split.
  - intros (u & t & Hu & _). simpl in Hu. by rewrite lookup_empty in Hu.
  - intros (p & Hp & _). simpl in Hp. by rewrite lookup_empty in Hp.
Qed.

(** What a call does to the row of a user that exists. *)
Lemma exec_user_row (c : Call) (db : DB) (k : string) (u : User) :
  users db !! k = Some u ->
  exists u',
    users (exec c db) !! k = Some u' /\
    email u' = email u /\ role u' = role u /\
    (approvedAt u <> None -> approvedAt u' <> None) /\
    (writes_accountStatus c = false -> accountStatus u' = accountStatus u) /\
    (accountStatus u <> PENDING_PAYMENT -> accountStatus u' <> PENDING_PAYMENT).
Proof.
  intros Hk.
  destruct (exec_users_cases c db)
    as [-> | [(u0 & u' & Ht & -> & He & Hr & _ & Ha & Hw & Hs)
             | (u' & Ht & -> & _)]].
  - by exists u.
  - destruct (decide (target c = k)) as [Heq|Hne].
    + rewrite Heq in *. rewrite lookup_insert_eq. simplify_eq. by exists u'.
    + rewrite lookup_insert_ne by done. by exists u.
  - rewrite lookup_insert_ne by congruence. by exists u.
Qed.

(** What a call does to a profile that exists. *)
Lemma exec_profile_row (c : Call) (db : DB) (k : string) (p : Profile) :
  profiles db !! k = Some p ->
  exists p',
    profiles (exec c db) !! k = Some p' /\
    profileId p' = profileId p /\
    (isComplete p = true -> isComplete p' = true).
Proof.
  intros Hk.
  destruct (exec_profiles_cases c db)
    as [-> | [(p0 & p' & Ht & -> & Hi & _ & Hc) | (p' & Ht & -> & _)]].
  - by exists p.
  - destruct (decide (target c = k)) as [Heq|Hne].
    + rewrite Heq in *. rewrite lookup_insert_eq. simplify_eq. by exists p'.
    + rewrite lookup_insert_ne by done. by exists p.
  - rewrite lookup_insert_ne by congruence. by exists p.
Qed.



(** X18: no call removes a user or a profile, and none changes a user's
    e-mail address or role or a profile's primary key; the account status
    is changed by [activateAfterPayment], [setAccountActive] and [suspend]
    only. *)
Theorem rows_stay (c : Call) (db : DB) (k : string) (u : User) :
  users db !! k = Some u ->
  (exists u',
     users (exec c db) !! k = Some u' /\
     email u' = email u /\ role u' = role u /\
     (writes_accountStatus c = false -> accountStatus u' = accountStatus u)) /\
  (forall p, profiles db !! k = Some p ->
     exists p', profiles (exec c db) !! k = Some p' /\
                profileId p' = profileId p).
Proof.
  intros Hk. split.
  - destruct (exec_user_row c db k u Hk) as (u' & Hu' & He & Hr & _ & Hw & _).
    by exists u'.
  - intros p Hp.
    destruct (exec_profile_row c db k p Hp) as (p' & Hp' & Hi & _).
    by exists p'.
Qed.

Lemma rows_stay_witness :
  users db_ben !! "u2" = Some ben_row /\
  (exists u',
     users (exec (UpdateUser "p9" "u2" new_bio) db_ben) !! "u2" = Some u' /\
     email u' = email ben_row /\ role u' = role ben_row /\
     (writes_accountStatus (UpdateUser "p9" "u2" new_bio) = false ->
      accountStatus u' = accountStatus ben_row)) /\
  (forall p, profiles db_ben !! "u2" = Some p ->
     exists p',
       profiles (exec (UpdateUser "p9" "u2" new_bio) db_ben) !! "u2" = Some p' /\
       profileId p' = profileId p).
Proof.
  split; [reflexivity|].
  apply (rows_stay (UpdateUser "p9" "u2" new_bio) db_ben "u2" ben_row).
  reflexivity.
Defined.

(** X19: an account that has left PENDING_PAYMENT never returns to it:
    after any run of calls the user is still there and the account status
    is ACTIVE or SUSPENDED. *)
Theorem never_back_to_pending_payment (cs : list Call) (db : DB) (k : string)
    (u : User) :
  users db !! k = Some u ->
  accountStatus u <> PENDING_PAYMENT ->
  exists u',
    users (exec_all cs db) !! k = Some u' /\
    (accountStatus u' = ACTIVE \/ accountStatus u' = SUSPENDED).
Proof.
  intros Hk Hs.
  assert (exists u', users (exec_all cs db) !! k = Some u' /\
                     accountStatus u' <> PENDING_PAYMENT) as (u' & Hu' & Hs').
  { induction cs as [|c cs IH] using rev_ind; [by exists u|].
    destruct IH as (v & Hv & Hvs). rewrite exec_all_snoc.
    destruct (exec_user_row c _ k v Hv) as (v' & Hv' & _ & _ & _ & _ & Hn).
    exists v'. split; [done|]. by apply Hn. }
  exists u'. split; [done|]. by destruct (accountStatus u'); auto.
Qed.

Lemma never_back_to_pending_payment_witness :
  let db := exec (ActivateAfterPayment "u1") db_ann in
  users db !! "u1" = Some (set_accountStatus ACTIVE ann_row) /\
  exists u',
    users (exec_all [Suspend "u1"; UpdateUser "p9" "u1" empty_profile;
                     ApproveProfile 5 "p8" "u1"] db) !! "u1" = Some u' /\
    (accountStatus u' = ACTIVE \/ accountStatus u' = SUSPENDED).
Proof.
  split; [reflexivity|].
  apply (never_back_to_pending_payment
           [Suspend "u1"; UpdateUser "p9" "u1" empty_profile;
            ApproveProfile 5 "p8" "u1"]
           (exec (ActivateAfterPayment "u1") db_ann) "u1"
           (set_accountStatus ACTIVE ann_row)); [reflexivity | discriminate].
Defined.

(** X20: an approval cannot be taken back: once a user has [approvedAt]
    set, and once a user has a complete profile, this stays so after any
    run of calls. *)
Theorem approval_is_permanent (cs : list Call) (db : DB) (k : string) :
  (approved db k -> approved (exec_all cs db) k) /\
  (complete_profile db k -> complete_profile (exec_all cs db) k).
Proof.
  split.
  - intros Ha. induction cs as [|c cs IH] using rev_ind; [done|].
    destruct IH as (u & t & Hu & Ht). rewrite exec_all_snoc.
    destruct (exec_user_row c _ k u Hu) as (u' & Hu' & _ & _ & Hn & _).
    destruct (approvedAt u') as [t'|] eqn:Ht'.
    + by exists u', t'.
    + destruct Hn; [by rewrite Ht | done].
  - intros Ha. induction cs as [|c cs IH] using rev_ind; [done|].
    destruct IH as (p & Hp & Hc). rewrite exec_all_snoc.
    destruct (exec_profile_row c _ k p Hp) as (p' & Hp' & _ & Hn).
    exists p'. split; [done|]. by apply Hn.
Qed.

Lemma approval_is_permanent_witness :
  approved db_ben_approved "u2" /\
  approved (exec_all [Suspend "u2"; SetBackgroundStatus "u2" FAILED;
                      UpdateUser "p9" "u2" new_bio] db_ben_approved) "u2".
Proof.
  assert (approved db_ben_approved "u2") as Ha
    by (exists (set_approvedAt (Some 1000) ben_row), 1000; split; reflexivity).
  split; [exact Ha|].
  by apply (approval_is_permanent
              [Suspend "u2"; SetBackgroundStatus "u2" FAILED;
               UpdateUser "p9" "u2" new_bio] db_ben_approved "u2").
Defined.

(** X21: in every store reached from the empty one by calls of the two
    services the constraints of the schema hold: no two users have the
    same e-mail address, no two profiles the same primary key, and every
    profile belongs to a user. *)
Theorem schema_ok_reachable (cs : list Call) :
  schema_ok (exec_all cs db_empty).
Proof. apply exec_all_schema_ok, schema_ok_empty. Qed.

(** X22: in every store reached from the empty one by calls of the two
    services, a user has [approvedAt] set exactly when that user has a
    profile with [isComplete] true. *)
Theorem approved_iff_complete_reachable (cs : list Call) (k : string) :
  (exists u t, users (exec_all cs db_empty) !! k = Some u /\
               approvedAt u = Some t)
  <->
  (exists p, profiles (exec_all cs db_empty) !! k = Some p /\
             isComplete p = true).
Proof.
  apply (exec_all_approval_consistent cs db_empty approval_consistent_empty k).
Qed.

(** X23: in every store reached from the empty one by calls of the two
    services, the three requirements of the comment above
    [canAccessServices] decide the gate: for an existing user the answer
    is true exactly when the account is ACTIVE, the profile is complete
    and the background status is PASSED. *)
Theorem gate_three_requirements_reachable (cs : list Call) (userId : string)
    (u : User) :
  users (exec_all cs db_empty) !! userId = Some u ->
  exists b : bool,
    snd (UsersService.canAccessServices userId (exec_all cs db_empty)) = Ok b /\
    (b = true <->
       accountStatus u = ACTIVE /\
       (exists p, profiles (exec_all cs db_empty) !! userId = Some p /\
                  isComplete p = true) /\
       backgroundStatus u = PASSED).
Proof.
  intros Hu. rewrite canAccessServices_run, Hu. simpl.
  eexists; split; [reflexivity|].
  pose proof (exec_all_approval_consistent cs db_empty
                approval_consistent_empty userId) as [Hac Hca].
  unfold approved, complete_profile in *.
  rewrite !andb_true_iff, !bool_decide_eq_true. split.
  - intros [[[Ha Hp] Hb] _]. repeat split; [done| |done].
    destruct (profiles (exec_all cs db_empty) !! userId) as [p|];
      [by exists p | done].
  - intros (Ha & (p & Hp & Hc) & Hb).
    destruct Hca as (u' & t & Hu' & Ht); [by exists p|].
    simplify_eq. rewrite Hp, Ht. by repeat split.
Qed.

Lemma gate_three_requirements_reachable_witness :
  users (exec_all ben_open db_empty) !! "u2"
    = Some (mkUser "ben@example.com" "hash-b" "Ben" NANNY ACTIVE
                   (Some 1000) PASSED) /\
  exists b : bool,
    snd (UsersService.canAccessServices "u2" (exec_all ben_open db_empty))
      = Ok b /\
    (b = true <->
       accountStatus (mkUser "ben@example.com" "hash-b" "Ben" NANNY ACTIVE
                             (Some 1000) PASSED) = ACTIVE /\
       (exists p, profiles (exec_all ben_open db_empty) !! "u2" = Some p /\
                  isComplete p = true) /\
       backgroundStatus (mkUser "ben@example.com" "hash-b" "Ben" NANNY ACTIVE
                                (Some 1000) PASSED) = PASSED).
Proof.
  split; [reflexivity|].
  apply (gate_three_requirements_reachable ben_open "u2"
           (mkUser "ben@example.com" "hash-b" "Ben" NANNY ACTIVE
                   (Some 1000) PASSED)).
  reflexivity.
Defined.
